(** * elysia-bun-template: the entry point and the Drizzle configuration

    A shallow embedding of the two TypeScript modules of the template that
    carry behaviour:

    - [drizzle.config.ts], which computes the database connection string
      from the process environment ([Module DrizzleConfig]);
    - the entry module ([src/index.ts]), which builds the Elysia
      application, registers its routes and starts listening
      ([Module Server]).

    The process environment ([Bun.env]) is a finite map from variable names
    to strings; a variable that is not set reads as [undefined], which is
    a lookup returning [None]. *)

From stdpp Require Import gmap strings list pretty.
From Stdlib Require Import ZArith.

Local Open Scope string_scope.

(** ** JavaScript values the code relies on *)

Module Js.

(** [Bun.env]: variable name to value.  Values are always strings. *)
Abbreviation Env := (gmap string string).

(** Truthiness of a string: every string but the empty one is truthy
    (so ["0"] and ["false"] are truthy).  The other value a property read
    [Bun.env.X] can give, [undefined], is falsy; that is the [None] branch
    wherever a lookup is tested. *)
Definition truthy (s : string) : bool :=
  match s with
  | EmptyString => false
  | String _ _ => true
  end.

(** [contains needle s]: [s.includes(needle)]. *)
Fixpoint contains (needle s : string) : bool :=
  if String.prefix needle s then true
  else match s with
       | EmptyString => false
       | String _ rest => contains needle rest
       end.

End Js.

(** ** drizzle.config.ts *)

Module DrizzleConfig.
Import Js.

(** The object handed to [defineConfig]. *)
Record Config := {
  schema : string;
  out : string;
  dialect : string;
  dbCredentials_url : string
}.

(** The module-level [let url], after the two nested [if]s have run.
    [url] starts as the local file; it is overwritten when
    [TURSO_DATABASE_URL] is truthy, and only then is the token looked at. *)
Definition url (env : Env) : string :=
  let url := "file:local.db" in
  match env !! "TURSO_DATABASE_URL" with
  | Some database_url =>
      if truthy database_url then
        let url := database_url in
        match env !! "TURSO_AUTH_TOKEN" with
        | Some auth_token =>
            if truthy auth_token
            then url +:+ "?authToken=" +:+ auth_token
            else url
        | None => url
        end
      else url
  | None => url
  end.

(** [export default defineConfig({...})]. *)
Definition config (env : Env) : Config :=
  {| schema := "./src/db/schema.ts";
     out := "./drizzle";
     dialect := "sqlite";
     dbCredentials_url := url env |}.

End DrizzleConfig.

(** ** The database behind the ORM client

    The entry module imports [db] (the Drizzle client) and [users] (the
    table) and calls [db.select().from(users).all()].  Drizzle and libSQL
    are libraries; what follows is the part of their behaviour the entry
    module can observe: a query builder, and the execution of a built query
    against the current contents of the database, which either resolves
    with rows or rejects with an error. *)

Module Db.

(** A column value of a SQLite row.  A stored integer is a 64-bit signed
    integer ([int64]); it is carried as a [Z], and reading it into a row
    object ([readable] below) is refused outside the range a JavaScript
    number holds exactly, which lies well inside the 64 bits. *)
Inductive SqlValue :=
| SqlNull
| SqlInteger (z : Z)
| SqlText (s : string).

Definition int64 (z : Z) : bool :=
  ((- 2 ^ 63 <=? z) && (z <? 2 ^ 63))%Z.

(** A row object: column name to value, in column order. *)
Definition Row := list (string * SqlValue).

Record Table := { table_name : string }.

(** Modelled from the spec: the [users] export of [src/db/schema.ts], a
    file that is not among the sources.  The spec gives the table its name
    and nothing else: a single relational entity, the "users" table, with
    no documented columns. *)
Definition users : Table := {| table_name := "users" |}.

(** What a rejected query carries. *)
Inductive DbError :=
| ConnectionError (message : string)
| QueryError (message : string)
| RangeError (message : string).

Definition error_message (e : DbError) : string :=
  match e with
  | ConnectionError m => m
  | QueryError m => m
  | RangeError m => m
  end.

(** The state of a select builder: the column list given to [select], the
    table given to [from], and the clauses [where] and [limit] would add.
    A part that was never called is [None]. *)
Record Select := {
  sel_fields : option (list string);
  sel_from : option Table;
  sel_where : option (Row -> bool);
  sel_limit : option nat
}.

(** [db.select()]: no argument, so every column. *)
Definition select : Select :=
  {| sel_fields := None; sel_from := None;
     sel_where := None; sel_limit := None |}.

(** [.from(table)]. *)
Definition from (table : Table) (q : Select) : Select :=
  {| sel_fields := sel_fields q; sel_from := Some table;
     sel_where := sel_where q; sel_limit := sel_limit q |}.

(** The database as the client sees it: the tables, the fate of the
    operations to come ([Some e] for one that will fail with [e]; past the
    end of the list every operation reaches the database), and the queries
    sent so far. *)
Record Database := {
  tables : gmap string (list Row);
  faults : list (option DbError);
  sent : list Select
}.

Inductive Result (A : Type) :=
| Ok (a : A)
| Err (e : DbError).
Arguments Ok {A} a.
Arguments Err {A} e.

(** An asynchronous computation over the database: a promise that resolves
    ([Ok]) or rejects ([Err]). *)
Definition Eff (A : Type) : Type := Database -> Database * Result A.

#[global] Instance eff_ret : MRet Eff := fun A a d => (d, Ok a).

(** [await]: a rejection of the awaited promise is thrown from the [await]
    and, with no [try] around it, rejects the enclosing function. *)
#[global] Instance eff_bind : MBind Eff := fun A B k m d =>
  match m d with
  | (d', Ok a) => k a d'
  | (d', Err e) => (d', Err e)
  end.

Definition keep_columns (cols : list string) (r : Row) : Row :=
  List.filter (fun c => bool_decide (c.1 ∈ cols)) r.

(** The rows a query yields from the rows of its table. *)
Definition rows_of (q : Select) (stored : list Row) : list Row :=
  let matching :=
    match sel_where q with
    | Some p => List.filter p stored
    | None => stored
    end in
  let page :=
    match sel_limit q with
    | Some n => take n matching
    | None => matching
    end in
  match sel_fields q with
  | Some cols => keep_columns cols <$> page
  | None => page
  end.

(** The fate of the next operation. *)
Definition next_fault (d : Database) : option DbError :=
  match faults d with
  | Some e :: _ => Some e
  | _ => None
  end.

(** The database once [q] has been sent: the query is recorded and the
    fate of one operation is used up; the tables are as they were. *)
Definition after (q : Select) (d : Database) : Database :=
  {| tables := tables d; faults := tail (faults d); sent := sent d ++ [q] |}.

(** The integers a JavaScript number holds exactly, from
    [Number.MIN_SAFE_INTEGER] to [Number.MAX_SAFE_INTEGER]. *)
Definition safe_integer (z : Z) : bool :=
  ((- (2 ^ 53 - 1) <=? z) && (z <=? 2 ^ 53 - 1))%Z.

Definition readable (v : SqlValue) : bool :=
  match v with
  | SqlInteger z => safe_integer z
  | SqlNull => true
  | SqlText _ => true
  end.

(** Modelled from the spec: how the [db] client exported by
    [src/db/index.ts], a file that is not among the sources, hands rows
    over.  The spec has that module choose a connection string and set
    nothing else, so the client keeps its default integer mode: an integer
    becomes a JavaScript number, and a result with an integer outside the
    safe range is refused with a [RangeError]. *)
Definition read_rows (rows : list Row) : Result (list Row) :=
  if forallb (fun r : Row => forallb (fun c => readable c.2) r) rows
  then Ok rows
  else Err (RangeError
              ("Received integer which is too large to be safely "
               +:+ "represented as a JavaScript number")).

(** [.all()]: send the query.  It fails when the operation is fated to,
    when no table was given, when the table does not exist, or when a row
    of the result cannot be read. *)
Definition all (q : Select) : Eff (list Row) := fun d =>
  let d' := after q d in
  match next_fault d with
  | Some e => (d', Err e)
  | None =>
      match sel_from q with
      | None => (d', Err (QueryError "no table selected"))
      | Some t =>
          match tables d !! table_name t with
          | None => (d', Err (QueryError ("no such table: " +:+ table_name t)))
          | Some stored => (d', read_rows (rows_of q stored))
          end
      end
  end.

End Db.

(** ** The entry module, src/index.ts *)

Module Server.
Import Js Db.

Inductive Method := GET | POST | PUT | PATCH | DELETE | HEAD | OPTIONS.

#[global] Instance method_eq_dec : EqDecision Method.
Proof. solve_decision. Defined.

Record Request := {
  req_method : Method;
  req_path : string;
  req_headers : list (string * string);
  req_body : string
}.

(** What a handler of this application returns. *)
Inductive JsValue :=
| JsString (s : string)
| JsArray (rows : list Row).

(** A route handler: a function of the request context, possibly async. *)
Definition Handler : Type := Request -> Eff JsValue.

Record Route := {
  route_method : Method;
  route_path : string;
  route_handler : Handler
}.

Record ServerInfo := { hostname : string; port : Z }.

(** The Elysia instance: its route table, and [app.server] once it
    listens. *)
Record App := {
  routes : list Route;
  server : option ServerInfo
}.

Inductive Body :=
| TextPlain (s : string)
| Json (rows : list Row).

Record Response := { status : Z; body : Body }.

(** What the process is started with: command line, environment, and the
    host name the runtime reports for a listening server. *)
Record Process := {
  argv : list string;
  env : Env;
  runtime_hostname : string
}.

(** The calls the entry module makes, as they happen. *)
Inductive Event :=
| ENew
| EUse (plugin : string)
| ERoute (m : Method) (path : string)
| EListen (p : Z)
| EConsoleLog (line : string).

(** Start-up code: a computation that appends to the list of events. *)
Definition Startup (A : Type) : Type := list Event -> list Event * A.

#[global] Instance startup_ret : MRet Startup := fun A a tr => (tr, a).
#[global] Instance startup_bind : MBind Startup := fun A B k m tr =>
  let (tr', a) := m tr in k a tr'.

Definition emit (e : Event) : Startup unit := fun tr => ((tr ++ [e])%list, tt).

Definition add_route (m : Method) (path : string) (h : Handler) (app : App)
  : App :=
  {| routes := routes app ++ [{| route_method := m; route_path := path;
                                 route_handler := h |}];
     server := server app |}.

(** [new Elysia()]. *)
Definition new_Elysia : Startup App :=
  _ ← emit ENew;
  mret {| routes := []; server := None |}.

(** [.get(path, handler)]. *)
Definition get (path : string) (h : Handler) (app : App) : Startup App :=
  _ ← emit (ERoute GET path);
  mret (add_route GET path h app).

(** A plugin: a name and what it does to the instance it is applied to. *)
Record Plugin := {
  plugin_name : string;
  plugin_install : App -> App
}.

(** [.use(plugin)]. *)
Definition use (p : Plugin) (app : App) : Startup App :=
  _ ← emit (EUse (plugin_name p));
  mret (plugin_install p app).

(** [.listen(port)]: binds the port; [app.server] is set from then on. *)
Definition listen (proc : Process) (p : Z) (app : App) : Startup App :=
  _ ← emit (EListen p);
  mret {| routes := routes app;
          server := Some {| hostname := runtime_hostname proc; port := p |} |}.

Definition console_log (line : string) : Startup unit :=
  emit (EConsoleLog line).

(** [`${v}`] for an optional chain [app.server?.x]. *)
Definition template (v : option string) : string := default "undefined" v.

(** Mapping a handler's value to a response: a string is sent as text, an
    array as JSON, both with the default status. *)
Definition mapResponse (v : JsValue) : Response :=
  match v with
  | JsString s => {| status := 200; body := TextPlain s |}
  | JsArray rows => {| status := 200; body := Json rows |}
  end.

(** The framework's answer to an error no [onError] hook handles. *)
Definition errorResponse (e : DbError) : Response :=
  {| status := 500; body := TextPlain (error_message e) |}.

Definition notFound : Response :=
  {| status := 404; body := TextPlain "NOT_FOUND" |}.

Definition matches (req : Request) (r : Route) : bool :=
  bool_decide (route_method r = req_method req)
  && String.eqb (route_path r) (req_path req).

(** One request against the instance: find the route, run its handler,
    map what it gives.  The database comes back as the handler left it. *)
Definition handle (app : App) (req : Request) (d : Database)
  : Database * Response :=
  match List.find (matches req) (routes app) with
  | None => (d, notFound)
  | Some r =>
      match route_handler r req d with
      | (d', Ok v) => (d', mapResponse v)
      | (d', Err e) => (d', errorResponse e)
      end
  end.

Section Entry.

(** The two handlers of the documentation plugin, which belong to
    [@elysiajs/swagger]; nothing below depends on what they return. *)
Variable swagger_ui : Handler.
Variable swagger_json : Handler.

(** [swagger()], with its default path. *)
Definition swagger : Plugin :=
  {| plugin_name := "swagger";
     plugin_install := fun app =>
       add_route GET "/swagger/json" swagger_json
         (add_route GET "/swagger" swagger_ui app) |}.

(** [() => "Hello Elysia"]. *)
Definition root_handler : Handler :=
  fun _ => mret (JsString "Hello Elysia").

(** [async () => { return await db.select().from(users).all(); }]. *)
Definition users_handler : Handler :=
  fun _ =>
    rows ← all (from users select);
    mret (JsArray rows).

Definition banner (app : App) : string :=
  "🦊 Elysia is running at "
  +:+ template (hostname <$> server app)
  +:+ ":"
  +:+ template ((fun s => pretty (port s)) <$> server app).

(** The module body: the chain that builds [app], then the [console.log]. *)
Definition main (proc : Process) : Startup App :=
  app ← new_Elysia;
  app ← use swagger app;
  app ← get "/" root_handler app;
  app ← get "/users" users_handler app;
  app ← listen proc 3000 app;
  _ ← console_log (banner app);
  mret app.

(** The events of a start, and the instance it leaves serving. *)
Definition startup_trace (proc : Process) : list Event := (main proc []).1.
Definition app (proc : Process) : App := (main proc []).2.

(** The ports bound and the routes registered during a start. *)
Definition bound_ports (tr : list Event) : list Z :=
  omap (fun e => match e with EListen p => Some p | _ => None end) tr.

Definition registered (tr : list Event) : list (Method * string) :=
  omap (fun e => match e with ERoute m p => Some (m, p) | _ => None end) tr.

End Entry.

(** The start-up sequence in the words of the specification: construct the
    instance, register one plugin, register three handlers, bind a port,
    and nothing else. *)
Definition claimed_startup (tr : list Event) : Prop :=
  exists plugin m1 p1 m2 p2 m3 p3 bound,
    tr = [ENew; EUse plugin; ERoute m1 p1; ERoute m2 p2; ERoute m3 p3;
          EListen bound].

End Server.

(** ** Sample inputs *)

Module Samples.
Import Js Db Server.

Definition env_url_only : Env :=
  {[ "TURSO_DATABASE_URL" := "libsql://demo.turso.io" ]}.

Definition env_both : Env :=
  <[ "TURSO_AUTH_TOKEN" := "s3cr3t" ]>
    {[ "TURSO_DATABASE_URL" := "libsql://demo.turso.io" ]}.

Definition env_empty_url : Env :=
  <[ "TURSO_AUTH_TOKEN" := "s3cr3t" ]> {[ "TURSO_DATABASE_URL" := "" ]}.

Definition env_empty_token : Env :=
  <[ "TURSO_AUTH_TOKEN" := "" ]>
    {[ "TURSO_DATABASE_URL" := "libsql://demo.turso.io" ]}.

Definition env_unrelated : Env := {[ "HOME" := "/home/bun" ]}.

Definition env_token_only : Env := {[ "TURSO_AUTH_TOKEN" := "s3cr3t" ]}.

Definition proc_local : Process :=
  {| argv := ["bun"; "run"; "src/index.ts"];
     env := {[ "PORT" := "8080" ]};
     runtime_hostname := "localhost" |}.

(** Stand-ins for the two handlers of the documentation plugin. *)
Definition doc_ui : Handler := fun _ => mret (JsString "<!doctype html>").
Definition doc_json : Handler := fun _ => mret (JsArray []).

Definition get_root : Request :=
  {| req_method := GET; req_path := "/";
     req_headers := [("accept", "*/*")]; req_body := "" |}.

Definition get_users : Request :=
  {| req_method := GET; req_path := "/users";
     req_headers := []; req_body := "" |}.

Definition alice : Row := [("id", SqlInteger 1); ("name", SqlText "alice")].
Definition bob : Row := [("id", SqlInteger 2); ("name", SqlNull)].

Definition db_empty : Database :=
  {| tables := {[ "users" := [] ]}; faults := []; sent := [] |}.

Definition db_two : Database :=
  {| tables := {[ "users" := [alice; bob] ]}; faults := [None]; sent := [] |}.

(** The first operation fails, the second would reach the database. *)
Definition db_down_once : Database :=
  {| tables := {[ "users" := [alice] ]};
     faults := [Some (ConnectionError "ECONNREFUSED"); None];
     sent := [] |}.

(** No migration has run: there is no [users] table. *)
Definition db_unmigrated : Database :=
  {| tables := ∅; faults := []; sent := [] |}.

(** The same two variables among others. *)
Definition env_both_among_others : Env :=
  <[ "PORT" := "8080" ]> (<[ "NODE_ENV" := "production" ]> env_both).

(** The token written into the database URL by hand, no token variable. *)
Definition env_token_inline : Env :=
  {[ "TURSO_DATABASE_URL" := "libsql://demo.turso.io?authToken=s3cr3t" ]}.

(** A request for [/users] that carries credentials and a body. *)
Definition get_users_loaded : Request :=
  {| req_method := GET; req_path := "/users";
     req_headers := [("authorization", "Bearer abc"); ("range", "rows=0-0")];
     req_body := "limit=1" |}.

(** A row whose key is one past [Number.MAX_SAFE_INTEGER]. *)
Definition carol : Row :=
  [("id", SqlInteger 9007199254740993); ("name", SqlText "carol")].

Definition db_large_key : Database :=
  {| tables := {[ "users" := [carol] ]}; faults := []; sent := [] |}.

End Samples.

(** * Properties *)

(** ** The connection string *)

Module ConfigProps.
Import Js DrizzleConfig Samples.

Lemma truthy_nonempty (s : string) : s ≠ "" -> truthy s = true.
Proof. destruct s; [congruence | reflexivity]. Qed.

(** The three ways the nested tests can go. *)
Lemma url_no_database_url (env : Env) :
  env !! "TURSO_DATABASE_URL" = None -> url env = "file:local.db".
Proof. intros Hu. unfold url. rewrite Hu. reflexivity. Qed.

Lemma url_empty_database_url (env : Env) :
  env !! "TURSO_DATABASE_URL" = Some "" -> url env = "file:local.db".
Proof. intros Hu. unfold url. rewrite Hu. reflexivity. Qed.

Lemma url_database_url (env : Env) (u : string) :
  env !! "TURSO_DATABASE_URL" = Some u -> u ≠ "" ->
  url env =
    match env !! "TURSO_AUTH_TOKEN" with
    | Some t => if truthy t then u +:+ "?authToken=" +:+ t else u
    | None => u
    end.
Proof.
  intros Hu Hne. unfold url. rewrite Hu, (truthy_nonempty u Hne). reflexivity.
Qed.

(** The computation at a few environments. *)
Example contains_token_parameter :
  contains "authToken" "libsql://demo.turso.io?authToken=s3cr3t" = true.
Proof. reflexivity. Qed.

Example url_env_both :
  url env_both = "libsql://demo.turso.io?authToken=s3cr3t".
Proof. vm_compute. reflexivity. Qed.

Example url_env_empty_url : url env_empty_url = "file:local.db".
Proof. vm_compute. reflexivity. Qed.

Example url_env_empty_token : url env_empty_token = "libsql://demo.turso.io".
Proof. vm_compute. reflexivity. Qed.

(** C3: with neither [TURSO_DATABASE_URL] nor [TURSO_AUTH_TOKEN] set, the
    connection string is the local file ["file:local.db"]; the computation
    is a total function, so it yields this value and cannot raise.  The
    exported configuration carries the same string. *)
Theorem url_local_when_unset (env : Env) :
  env !! "TURSO_DATABASE_URL" = None ->
  env !! "TURSO_AUTH_TOKEN" = None ->
  url env = "file:local.db"
  /\ dbCredentials_url (config env) = "file:local.db".
Proof.
  intros Hu _. cbn [config dbCredentials_url].
  rewrite (url_no_database_url env Hu). split; reflexivity.
Qed.

Lemma url_local_when_unset_witness :
  env_unrelated !! "TURSO_DATABASE_URL" = None
  /\ env_unrelated !! "TURSO_AUTH_TOKEN" = None
  /\ url env_unrelated = "file:local.db".
Proof.
  assert (Hu : env_unrelated !! "TURSO_DATABASE_URL" = None)
    by (vm_compute; reflexivity).
  assert (Ht : env_unrelated !! "TURSO_AUTH_TOKEN" = None)
    by (vm_compute; reflexivity).
  split; [exact Hu | split; [exact Ht |]].
  exact (proj1 (url_local_when_unset env_unrelated Hu Ht)).
Defined.

(** C4: with [TURSO_DATABASE_URL] set to a non-empty string and
    [TURSO_AUTH_TOKEN] not set, the connection string is the value of
    [TURSO_DATABASE_URL], character for character: nothing is appended. *)
Theorem url_remote_without_token (env : Env) (u : string) :
  env !! "TURSO_DATABASE_URL" = Some u ->
  u ≠ "" ->
  env !! "TURSO_AUTH_TOKEN" = None ->
  url env = u.
Proof.
  intros Hu Hne Ht. rewrite (url_database_url env u Hu Hne), Ht. reflexivity.
Qed.

Lemma url_remote_without_token_witness :
  env_url_only !! "TURSO_AUTH_TOKEN" = None
  /\ url env_url_only = "libsql://demo.turso.io".
Proof.
  assert (Ht : env_url_only !! "TURSO_AUTH_TOKEN" = None)
    by (vm_compute; reflexivity).
  split; [exact Ht |].
  apply (url_remote_without_token env_url_only "libsql://demo.turso.io").
  - vm_compute; reflexivity.
  - discriminate.
  - exact Ht.
Defined.

(** C5: with both variables set to non-empty strings, the connection string
    is the value of [TURSO_DATABASE_URL] followed by ["?authToken="] and the
    value of [TURSO_AUTH_TOKEN]. *)
Theorem url_remote_with_token (env : Env) (u t : string) :
  env !! "TURSO_DATABASE_URL" = Some u ->
  u ≠ "" ->
  env !! "TURSO_AUTH_TOKEN" = Some t ->
  t ≠ "" ->
  url env = u +:+ "?authToken=" +:+ t.
Proof.
  intros Hu Hune Ht Htne.
  rewrite (url_database_url env u Hu Hune), Ht, (truthy_nonempty t Htne).
  reflexivity.
Qed.

Lemma url_remote_with_token_witness :
  url env_both = "libsql://demo.turso.io?authToken=s3cr3t".
Proof.
  apply (url_remote_with_token env_both "libsql://demo.turso.io" "s3cr3t").
  - vm_compute; reflexivity.
  - discriminate.
  - vm_compute; reflexivity.
  - discriminate.
Defined.

(** C9: with [TURSO_AUTH_TOKEN] set and [TURSO_DATABASE_URL] not set, or set
    to the empty string, the token plays no part: the connection string is
    ["file:local.db"], which has no [authToken] in it. *)
Theorem url_token_ignored_without_database_url (env : Env) (t : string) :
  env !! "TURSO_AUTH_TOKEN" = Some t ->
  env !! "TURSO_DATABASE_URL" = None
  \/ env !! "TURSO_DATABASE_URL" = Some "" ->
  url env = "file:local.db" /\ contains "authToken" (url env) = false.
Proof.
  intros _ Hu.
  assert (H : url env = "file:local.db").
  { destruct Hu as [Hu | Hu].
    - exact (url_no_database_url env Hu).
    - exact (url_empty_database_url env Hu). }
  rewrite H. split; reflexivity.
Qed.

Lemma url_token_ignored_without_database_url_witness :
  url env_token_only = "file:local.db"
  /\ contains "authToken" (url env_token_only) = false.
Proof.
  apply (url_token_ignored_without_database_url env_token_only "s3cr3t").
  - vm_compute; reflexivity.
  - left. vm_compute; reflexivity.
Defined.

(** Removing a variable that is set to the empty string changes nothing. *)
Lemma url_delete_empty_database_url (env : Env) :
  env !! "TURSO_DATABASE_URL" = Some "" ->
  url env = url (delete "TURSO_DATABASE_URL" env).
Proof.
  intros Hu. rewrite (url_empty_database_url env Hu).
  symmetry. apply url_no_database_url. apply lookup_delete_eq.
Qed.

Lemma url_delete_empty_token (env : Env) :
  env !! "TURSO_AUTH_TOKEN" = Some "" ->
  url env = url (delete "TURSO_AUTH_TOKEN" env).
Proof.
  intros Ht. unfold url.
  rewrite lookup_delete_eq, lookup_delete_ne by discriminate.
  rewrite Ht. destruct (env !! "TURSO_DATABASE_URL") as [u |]; [| reflexivity].
  destruct (truthy u); reflexivity.
Qed.

(** C10: the tests are for truthiness, not presence.  With
    [TURSO_DATABASE_URL] set to the empty string the connection string is
    ["file:local.db"], the same as with the variable removed; with
    [TURSO_AUTH_TOKEN] set to the empty string the connection string is the
    same as with the token removed, so a non-empty [TURSO_DATABASE_URL]
    comes out with nothing appended. *)
Theorem url_tests_truthiness (env : Env) :
  (env !! "TURSO_DATABASE_URL" = Some "" ->
     url env = "file:local.db"
     /\ url env = url (delete "TURSO_DATABASE_URL" env))
  /\ (env !! "TURSO_AUTH_TOKEN" = Some "" ->
        url env = url (delete "TURSO_AUTH_TOKEN" env)
        /\ forall u, env !! "TURSO_DATABASE_URL" = Some u -> u ≠ "" ->
                     url env = u).
Proof.
  split.
  - intros Hu. split.
    + exact (url_empty_database_url env Hu).
    + exact (url_delete_empty_database_url env Hu).
  - intros Ht. split.
    + exact (url_delete_empty_token env Ht).
    + intros u Hu Hne. rewrite (url_database_url env u Hu Hne), Ht.
      reflexivity.
Qed.

Lemma url_tests_truthiness_witness :
  url env_empty_url = "file:local.db"
  /\ url env_empty_token = "libsql://demo.turso.io".
Proof.
  split.
  - apply (proj1 (url_tests_truthiness env_empty_url)).
    vm_compute; reflexivity.
  - apply (proj2 (url_tests_truthiness env_empty_token)).
    + vm_compute; reflexivity.
    + vm_compute; reflexivity.
    + discriminate.
Defined.

End ConfigProps.

(** ** The server *)

Module ServerProps.
Import Js Db Server Samples.

(** *** The ORM query *)

(** Sending a query always leaves the database in the state [after]. *)
Lemma all_state (q : Select) (d d' : Database) (r : Result (list Row)) :
  all q d = (d', r) -> d' = after q d.
Proof.
  unfold all. intros H.
  destruct (next_fault d); [congruence |].
  destruct (sel_from q) as [t |]; [| congruence].
  destruct (tables d !! table_name t); congruence.
Qed.

(** Over an empty table the select resolves, with no rows. *)
Lemma all_users_empty (d : Database) :
  next_fault d = None ->
  tables d !! "users" = Some [] ->
  all (from users select) d = (after (from users select) d, Ok []).
Proof.
  intros Hf Ht. unfold all. rewrite Hf. cbn [sel_from from users table_name].
  rewrite Ht. reflexivity.
Qed.

Lemma all_fault (q : Select) (d : Database) (e : DbError) :
  next_fault d = Some e -> all q d = (after q d, Err e).
Proof. intros Hf. unfold all. rewrite Hf. reflexivity. Qed.

Section EntryProps.

Variable swagger_ui : Handler.
Variable swagger_json : Handler.

Local Abbreviation the_app := (app swagger_ui swagger_json).
Local Abbreviation the_trace := (startup_trace swagger_ui swagger_json).

(** *** What a start leaves behind *)

Lemma app_routes (proc : Process) :
  routes (the_app proc) =
    [ {| route_method := GET; route_path := "/swagger";
         route_handler := swagger_ui |};
      {| route_method := GET; route_path := "/swagger/json";
         route_handler := swagger_json |};
      {| route_method := GET; route_path := "/";
         route_handler := root_handler |};
      {| route_method := GET; route_path := "/users";
         route_handler := users_handler |} ].
Proof. reflexivity. Qed.

Lemma app_server (proc : Process) :
  server (the_app proc) =
    Some {| hostname := runtime_hostname proc; port := 3000 |}.
Proof. reflexivity. Qed.

Lemma trace_steps (proc : Process) :
  the_trace proc =
    [ ENew; EUse "swagger"; ERoute GET "/"; ERoute GET "/users";
      EListen 3000;
      EConsoleLog ("🦊 Elysia is running at "
                   +:+ runtime_hostname proc +:+ ":3000") ].
Proof. reflexivity. Qed.

(** *** Routing *)

Lemma find_root (proc : Process) (req : Request) :
  req_method req = GET -> req_path req = "/" ->
  List.find (matches req) (routes (the_app proc)) =
    Some {| route_method := GET; route_path := "/";
            route_handler := root_handler |}.
Proof.
  intros Hm Hp. rewrite app_routes. unfold matches.
  rewrite Hm, Hp. reflexivity.
Qed.

Lemma find_users (proc : Process) (req : Request) :
  req_method req = GET -> req_path req = "/users" ->
  List.find (matches req) (routes (the_app proc)) =
    Some {| route_method := GET; route_path := "/users";
            route_handler := users_handler |}.
Proof.
  intros Hm Hp. rewrite app_routes. unfold matches.
  rewrite Hm, Hp. reflexivity.
Qed.

(** The [/users] handler is the query and nothing around it. *)
Lemma users_handler_run (req : Request) (d : Database) :
  users_handler req d =
    match all (from users select) d with
    | (d', Ok rows) => (d', Ok (JsArray rows))
    | (d', Err e) => (d', Err e)
    end.
Proof. reflexivity. Qed.

(** *** The two routes *)

(** C2: a GET request to [/], whatever else the request carries and
    whatever the state of the database, is answered with status 200 and the
    text ["Hello Elysia"], and the database is left untouched.  The handler
    itself looks at nothing: on every request and every database it
    resolves with that same string, never with an error. *)
Theorem get_root_greeting (proc : Process) (req : Request) (d : Database) :
  req_method req = GET ->
  req_path req = "/" ->
  handle (the_app proc) req d =
    (d, {| status := 200; body := TextPlain "Hello Elysia" |})
  /\ (forall (req' : Request) (d' : Database),
        root_handler req' d' = (d', Ok (JsString "Hello Elysia"))).
Proof.
  intros Hm Hp. split.
  - unfold handle. rewrite (find_root proc req Hm Hp). reflexivity.
  - intros req' d'. reflexivity.
Qed.

(** C1, as the code has it: whenever the one query of the [/users] handler
    resolves, a GET request to [/users] is answered with status 200 and a
    JSON body that is exactly the rows the query resolved with; one query
    was sent, a select on [users] with no column list, no condition and no
    limit, and no table changed.  In particular, when the database is
    reached and the users table holds no rows, the body is the empty
    array. *)
Theorem get_users_returns_all_rows
    (proc : Process) (req : Request) (d : Database) :
  req_method req = GET ->
  req_path req = "/users" ->
  let q := {| sel_fields := None; sel_from := Some users;
              sel_where := None; sel_limit := None |} in
  (forall (d' : Database) (rows : list Row),
     all q d = (d', Ok rows) ->
     handle (the_app proc) req d =
       (d', {| status := 200; body := Json rows |})
     /\ sent d' = (sent d ++ [q])%list
     /\ tables d' = tables d)
  /\ (next_fault d = None ->
      tables d !! "users" = Some [] ->
      handle (the_app proc) req d =
        (after q d, {| status := 200; body := Json [] |})).
Proof.
  intros Hm Hp q.
  assert (Hrun : forall d' rows, all q d = (d', Ok rows) ->
            handle (the_app proc) req d =
              (d', {| status := 200; body := Json rows |})).
  { intros d' rows Hall. unfold handle. rewrite (find_users proc req Hm Hp).
    cbn [route_handler]. rewrite users_handler_run.
    change (from users select) with q. rewrite Hall. reflexivity. }
  split.
  - intros d' rows Hall. split; [exact (Hrun d' rows Hall) |].
    rewrite (all_state _ _ _ _ Hall). split; reflexivity.
  - intros Hf Ht. apply Hrun. exact (all_users_empty d Hf Ht).
Qed.

(** C7: when the query of the [/users] handler fails with [e], be it
    because the database cannot be reached or because the query itself is
    refused, the handler rejects with that same [e] and in the state the
    failed query left: it sends nothing more (no second attempt) and turns
    the error into nothing else.  The response is the one the framework
    gives for an unhandled error. *)
Theorem get_users_error_propagates
    (proc : Process) (req : Request) (d d' : Database) (e : DbError) :
  req_method req = GET ->
  req_path req = "/users" ->
  all (from users select) d = (d', Err e) ->
  users_handler req d = (d', Err e)
  /\ sent d' = (sent d ++ [from users select])%list
  /\ handle (the_app proc) req d = (d', errorResponse e).
Proof.
  intros Hm Hp Hall. split; [| split].
  - rewrite users_handler_run, Hall. reflexivity.
  - rewrite (all_state _ _ _ _ Hall). reflexivity.
  - unfold handle. rewrite (find_users proc req Hm Hp).
    cbn [route_handler]. rewrite users_handler_run, Hall. reflexivity.
Qed.

(** *** Start-up *)

(** C6, as the code has it: a start performs, in this order, the
    construction of the Elysia instance, the registration of the swagger
    plugin, the registration of two GET handlers, for [/] and [/users], the
    binding of port 3000, and the writing of one banner line to the
    console; it performs nothing else. *)
Theorem startup_steps (proc : Process) :
  the_trace proc =
    [ ENew; EUse "swagger"; ERoute GET "/"; ERoute GET "/users";
      EListen 3000;
      EConsoleLog ("🦊 Elysia is running at "
                   +:+ runtime_hostname proc +:+ ":3000") ]
  /\ registered (the_trace proc) = [(GET, "/"); (GET, "/users")].
Proof. split; reflexivity. Qed.

(** C8: whatever the command line, the environment and the host name a
    process is started with, the start binds one port, 3000, and that is
    the port of the server the instance then reports. *)
Theorem port_is_fixed (proc : Process) :
  bound_ports (the_trace proc) = [3000%Z]
  /\ port <$> server (the_app proc) = Some 3000%Z.
Proof. split; reflexivity. Qed.

End EntryProps.

(** *** The theorems at sample inputs *)

Lemma get_root_greeting_witness :
  handle (app doc_ui doc_json proc_local) get_root db_down_once =
    (db_down_once, {| status := 200; body := TextPlain "Hello Elysia" |}).
Proof.
  apply (get_root_greeting doc_ui doc_json proc_local get_root db_down_once);
    reflexivity.
Defined.

Lemma get_users_returns_all_rows_witness :
  handle (app doc_ui doc_json proc_local) get_users db_two =
    (after (from users select) db_two,
     {| status := 200; body := Json [alice; bob] |})
  /\ handle (app doc_ui doc_json proc_local) get_users db_empty =
       (after (from users select) db_empty,
        {| status := 200; body := Json [] |}).
Proof.
  split.
  - apply (proj1 (get_users_returns_all_rows doc_ui doc_json proc_local
                    get_users db_two eq_refl eq_refl)).
    reflexivity.
  - apply (proj2 (get_users_returns_all_rows doc_ui doc_json proc_local
                    get_users db_empty eq_refl eq_refl));
      reflexivity.
Defined.

(** C1, as the specification words it, fails: not every state of the users
    table is answered with status 200.  With the database reached and the
    table holding one row whose integer key, a 64-bit value, lies past the
    safe range, the query rejects and the response is the error
    response. *)
Lemma get_users_large_key_not_200 :
  next_fault db_large_key = None
  /\ tables db_large_key !! "users" = Some [carol]
  /\ int64 9007199254740993 = true
  /\ status (handle (app doc_ui doc_json proc_local) get_users
               db_large_key).2 = 500%Z
  /\ (handle (app doc_ui doc_json proc_local) get_users db_large_key).2
     <> {| status := 200; body := Json [carol] |}.
Proof.
  split; [reflexivity |]. split; [vm_compute; reflexivity |].
  split; [reflexivity |]. split; [vm_compute; reflexivity |].
  intros H. apply (f_equal status) in H. vm_compute in H. discriminate H.
Qed.

Lemma get_users_error_propagates_witness :
  (users_handler get_users db_down_once =
     (after (from users select) db_down_once,
      Err (ConnectionError "ECONNREFUSED"))
   /\ sent (after (from users select) db_down_once) = [from users select]
   /\ handle (app doc_ui doc_json proc_local) get_users db_down_once =
        (after (from users select) db_down_once,
         {| status := 500; body := TextPlain "ECONNREFUSED" |}))
  /\ (handle (app doc_ui doc_json proc_local) get_users db_unmigrated).2 =
       {| status := 500; body := TextPlain "no such table: users" |}.
Proof.
  split.
  - apply (get_users_error_propagates doc_ui doc_json proc_local get_users
             db_down_once (after (from users select) db_down_once)
             (ConnectionError "ECONNREFUSED"));
      reflexivity.
  - rewrite (proj2 (proj2 (get_users_error_propagates doc_ui doc_json
               proc_local get_users db_unmigrated
               (after (from users select) db_unmigrated)
               (QueryError "no such table: users")
               eq_refl eq_refl eq_refl))).
    reflexivity.
Defined.

(** C6, as the specification words it, fails: the fifth step of a start is
    the binding of the port, where the specification has a third handler
    registration, and a console write follows the binding. *)
Lemma startup_not_as_claimed :
  ~ claimed_startup (startup_trace doc_ui doc_json proc_local).
Proof.
  intros (plugin & m1 & p1 & m2 & p2 & m3 & p3 & bound & H).
  rewrite (trace_steps doc_ui doc_json proc_local) in H.
  discriminate H.
Qed.

End ServerProps.

(** ** More on the connection string *)

Module ConfigMore.
Import Js DrizzleConfig Samples.

Lemma prefix_empty (s : string) : String.prefix "" s = true.
Proof. destruct s; reflexivity. Qed.

Lemma prefix_append (u s : string) : String.prefix u (u +:+ s) = true.
Proof.
  induction u as [| a u IH]; [apply prefix_empty |].
  simpl. destruct (Ascii.ascii_dec a a); [exact IH | congruence].
Qed.

Lemma prefix_refl (u : string) : String.prefix u u = true.
Proof.
  induction u as [| a u IH]; [reflexivity |].
  simpl. destruct (Ascii.ascii_dec a a); [exact IH | congruence].
Qed.

Lemma append_nonempty (u s : string) : u ≠ "" -> u +:+ s ≠ "".
Proof. destruct u; [congruence | discriminate]. Qed.

(** The computation reads [TURSO_DATABASE_URL] and [TURSO_AUTH_TOKEN] and
    no other variable: two environments that agree on these two give the
    same connection string and the same configuration. *)
Theorem url_reads_two_variables (env1 env2 : Env) :
  env1 !! "TURSO_DATABASE_URL" = env2 !! "TURSO_DATABASE_URL" ->
  env1 !! "TURSO_AUTH_TOKEN" = env2 !! "TURSO_AUTH_TOKEN" ->
  url env1 = url env2 /\ config env1 = config env2.
Proof.
  intros Hu Ht.
  assert (H : url env1 = url env2).
  { unfold url. rewrite Hu, Ht. reflexivity. }
  split; [exact H |]. unfold config. rewrite H. reflexivity.
Qed.

Lemma url_reads_two_variables_witness :
  url env_both_among_others = url env_both.
Proof.
  apply (url_reads_two_variables env_both_among_others env_both).
  - vm_compute; reflexivity.
  - vm_compute; reflexivity.
Defined.

(** Whatever the environment, the connection string is not empty. *)
Theorem url_never_empty (env : Env) :
  url env ≠ "" /\ dbCredentials_url (config env) ≠ "".
Proof.
  assert (H : url env ≠ "").
  { unfold url.
    destruct (env !! "TURSO_DATABASE_URL") as [u |]; [| discriminate].
    destruct u as [| a u]; [discriminate |]. cbn [truthy].
    destruct (env !! "TURSO_AUTH_TOKEN") as [t |]; [| discriminate].
    destruct (truthy t); discriminate. }
  split; exact H.
Qed.

(** The decision table of the two nested tests.  For every environment
    exactly these three outcomes exist: the local file, when the database
    URL is unset or empty; the database URL as it is, when it is non-empty
    and the token is unset or empty; the database URL with the token
    appended, when both are non-empty. *)
Theorem url_decision_table (env : Env) :
  ((env !! "TURSO_DATABASE_URL" = None
    \/ env !! "TURSO_DATABASE_URL" = Some "")
   /\ url env = "file:local.db")
  \/ (exists u,
        env !! "TURSO_DATABASE_URL" = Some u /\ u ≠ ""
        /\ (env !! "TURSO_AUTH_TOKEN" = None
            \/ env !! "TURSO_AUTH_TOKEN" = Some "")
        /\ url env = u)
  \/ (exists u t,
        env !! "TURSO_DATABASE_URL" = Some u /\ u ≠ ""
        /\ env !! "TURSO_AUTH_TOKEN" = Some t /\ t ≠ ""
        /\ url env = u +:+ "?authToken=" +:+ t).
Proof.
  destruct (env !! "TURSO_DATABASE_URL") as [u |] eqn:Hu.
  - destruct (decide (u = "")) as [-> | Hne].
    + left. split; [right; reflexivity |].
      exact (ConfigProps.url_empty_database_url env Hu).
    + right. rewrite (ConfigProps.url_database_url env u Hu Hne).
      destruct (env !! "TURSO_AUTH_TOKEN") as [t |] eqn:Ht.
      * destruct (decide (t = "")) as [-> | Htne].
        -- left. exists u. repeat split; auto.
        -- right. exists u, t.
           rewrite (ConfigProps.truthy_nonempty t Htne). repeat split; auto.
      * left. exists u. repeat split; auto.
  - left. split; [left; reflexivity |].
    exact (ConfigProps.url_no_database_url env Hu).
Qed.

(** A non-empty [TURSO_DATABASE_URL] is never rewritten: the connection
    string begins with it, whatever the token is. *)
Theorem url_starts_with_database_url (env : Env) (u : string) :
  env !! "TURSO_DATABASE_URL" = Some u ->
  u ≠ "" ->
  String.prefix u (url env) = true.
Proof.
  intros Hu Hne. rewrite (ConfigProps.url_database_url env u Hu Hne).
  destruct (env !! "TURSO_AUTH_TOKEN") as [t |]; [| apply prefix_refl].
  destruct (truthy t); [apply prefix_append | apply prefix_refl].
Qed.

Lemma url_starts_with_database_url_witness :
  String.prefix "libsql://demo.turso.io" (url env_both) = true.
Proof.
  apply (url_starts_with_database_url env_both "libsql://demo.turso.io").
  - vm_compute; reflexivity.
  - discriminate.
Defined.

(** The token variable is a convenience only: an environment that sets
    both variables and one that writes [?authToken=<token>] into the
    database URL itself, with the token variable unset or empty, give the
    same connection string. *)
Theorem url_token_inline_same (env1 env2 : Env) (u t : string) :
  env1 !! "TURSO_DATABASE_URL" = Some u ->
  u ≠ "" ->
  env1 !! "TURSO_AUTH_TOKEN" = Some t ->
  t ≠ "" ->
  env2 !! "TURSO_DATABASE_URL" = Some (u +:+ "?authToken=" +:+ t) ->
  env2 !! "TURSO_AUTH_TOKEN" = None \/ env2 !! "TURSO_AUTH_TOKEN" = Some "" ->
  url env1 = url env2.
Proof.
  intros Hu1 Hune Ht1 Htne Hu2 Ht2.
  rewrite (ConfigProps.url_database_url env1 u Hu1 Hune), Ht1,
    (ConfigProps.truthy_nonempty t Htne).
  rewrite (ConfigProps.url_database_url env2 _ Hu2
             (append_nonempty u _ Hune)).
  destruct Ht2 as [-> | ->]; reflexivity.
Qed.

Lemma url_token_inline_same_witness :
  url env_both = url env_token_inline.
Proof.
  apply (url_token_inline_same env_both env_token_inline
           "libsql://demo.turso.io" "s3cr3t").
  - vm_compute; reflexivity.
  - discriminate.
  - vm_compute; reflexivity.
  - discriminate.
  - vm_compute; reflexivity.
  - left. vm_compute; reflexivity.
Defined.

End ConfigMore.

(** ** More on the server *)

Module ServerMore.
Import Js Db Server Samples.

Section EntryMore.

Variable swagger_ui : Handler.
Variable swagger_json : Handler.

Local Abbreviation the_app := (app swagger_ui swagger_json).

(** A request for [/users] is the query, with the outcome mapped. *)
Lemma handle_users (proc : Process) (req : Request) (d : Database) :
  req_method req = GET -> req_path req = "/users" ->
  handle (the_app proc) req d =
    match all (from users select) d with
    | (d', Ok rows) => (d', {| status := 200; body := Json rows |})
    | (d', Err e) => (d', errorResponse e)
    end.
Proof.
  intros Hm Hp. unfold handle.
  rewrite (ServerProps.find_users swagger_ui swagger_json proc req Hm Hp).
  cbn [route_handler]. rewrite ServerProps.users_handler_run.
  destruct (all (from users select) d) as [d' [rows | e]]; reflexivity.
Qed.

Lemma handle_users_state (proc : Process) (req : Request) (d : Database) :
  req_method req = GET -> req_path req = "/users" ->
  (handle (the_app proc) req d).1 = after (from users select) d.
Proof.
  intros Hm Hp. rewrite (handle_users proc req d Hm Hp).
  destruct (all (from users select) d) as [d' r] eqn:Hall.
  apply ServerProps.all_state in Hall. subst d'.
  destruct r; reflexivity.
Qed.

(** A GET request to [/users] sends exactly one query and writes nothing,
    on every database: whether the query resolves, the database cannot be
    reached, or the table is missing, the tables afterwards are the tables
    before and the list of queries sent has grown by the one select. *)
Theorem get_users_one_query_no_write
    (proc : Process) (req : Request) (d : Database) :
  req_method req = GET ->
  req_path req = "/users" ->
  tables (handle (the_app proc) req d).1 = tables d
  /\ sent (handle (the_app proc) req d).1
     = (sent d ++ [from users select])%list.
Proof.
  intros Hm Hp. rewrite (handle_users_state proc req d Hm Hp).
  split; reflexivity.
Qed.

(** The [/users] handler reads nothing of the request: two GET requests
    to [/users], whatever their headers and bodies, get the same response
    from the same database and leave it in the same state. *)
Theorem get_users_ignores_request
    (proc : Process) (req1 req2 : Request) (d : Database) :
  req_method req1 = GET -> req_path req1 = "/users" ->
  req_method req2 = GET -> req_path req2 = "/users" ->
  handle (the_app proc) req1 d = handle (the_app proc) req2 d.
Proof.
  intros Hm1 Hp1 Hm2 Hp2.
  rewrite (handle_users proc req1 d Hm1 Hp1).
  rewrite (handle_users proc req2 d Hm2 Hp2). reflexivity.
Qed.

End EntryMore.

Lemma get_users_one_query_no_write_witness :
  tables (handle (app doc_ui doc_json proc_local) get_users
            db_unmigrated).1 = ∅
  /\ sent (handle (app doc_ui doc_json proc_local) get_users
             db_unmigrated).1 = [from users select].
Proof.
  apply (get_users_one_query_no_write doc_ui doc_json proc_local get_users
           db_unmigrated);
    reflexivity.
Defined.

Lemma get_users_ignores_request_witness :
  handle (app doc_ui doc_json proc_local) get_users_loaded db_two
  = handle (app doc_ui doc_json proc_local) get_users db_two.
Proof.
  apply (get_users_ignores_request doc_ui doc_json proc_local
           get_users_loaded get_users db_two);
    reflexivity.
Defined.

End ServerMore.
